(** * LibraryCommon: error codes, the Result container and its propagation idioms

    A shallow embedding of [src/ErrorCodes.h], [src/Result.h] and the
    propagation macros of [src/LibraryCommon.h], followed by the properties
    of the specification that concern them.

    Conventions of the embedding:
    - [ErrorCode] is an [enum class] over [int16_t]; its values are the
      integers of that range, written in [Z].  Every value of the underlying
      type is a value of the enumeration, declared or not.
    - [Result<T, E>] is the three-member class of the source (value, error,
      flag), kept as a record with the same three fields.  The partial
      specialization [Result<void, E>] is a separate two-field record.
    - Callables handed to [map] and [andThen], and the expression handed to
      [RETURN_IF_ERROR], may have side effects in C++.  They are computations
      of a state monad [Eff S], so that "is invoked" and "is evaluated once"
      are visible in the final state. *)

From Stdlib Require Import ZArith List String Bool Lia.
Import ListNotations.
Local Open Scope string_scope.
Local Open Scope Z_scope.

(* ===================================================================== *)
(** ** ErrorCodes.h *)
(* ===================================================================== *)

(** Two's-complement reduction to the range of [int16_t]: the value a
    conversion to the underlying type of [ErrorCode] produces. *)
Definition int16_wrap (n : Z) : Z := (n + 32768) mod 65536 - 32768.

(** [enum class ErrorCode : int16_t]. *)
Definition ErrorCode : Type := Z.

(** [static_cast<ErrorCode>(n)] for an integer [n]. *)
Definition static_cast_ErrorCode (n : Z) : ErrorCode := int16_wrap n.

Module Code.
(* Success *)
Definition OK : ErrorCode := 0.
Definition SUCCESS : ErrorCode := 0.
(* General errors (1-99) *)
Definition UNKNOWN_ERROR : ErrorCode := 1.
Definition NOT_INITIALIZED : ErrorCode := 2.
Definition ALREADY_INITIALIZED : ErrorCode := 3.
Definition INVALID_PARAMETER : ErrorCode := 4.
Definition INVALID_STATE : ErrorCode := 5.
Definition NOT_SUPPORTED : ErrorCode := 6.
Definition NOT_IMPLEMENTED : ErrorCode := 7.
Definition BUSY : ErrorCode := 8.
Definition WOULD_BLOCK : ErrorCode := 9.
(* Resource errors (10-29) *)
Definition OUT_OF_MEMORY : ErrorCode := 10.
Definition RESOURCE_EXHAUSTED : ErrorCode := 11.
Definition RESOURCE_NOT_FOUND : ErrorCode := 12.
Definition RESOURCE_LOCKED : ErrorCode := 13.
Definition RESOURCE_UNAVAILABLE : ErrorCode := 14.
(* Synchronization errors (30-49) *)
Definition TIMEOUT : ErrorCode := 30.
Definition MUTEX_ERROR : ErrorCode := 31.
Definition SEMAPHORE_ERROR : ErrorCode := 32.
Definition DEADLOCK_DETECTED : ErrorCode := 33.
Definition QUEUE_FULL : ErrorCode := 34.
Definition QUEUE_EMPTY : ErrorCode := 35.
(* I/O errors (50-69) *)
Definition IO_ERROR : ErrorCode := 50.
Definition READ_ERROR : ErrorCode := 51.
Definition WRITE_ERROR : ErrorCode := 52.
Definition PERMISSION_DENIED : ErrorCode := 53.
(* Data errors (70-99) *)
Definition DATA_NOT_READY : ErrorCode := 70.
Definition DATA_CORRUPTED : ErrorCode := 71.
Definition CRC_ERROR : ErrorCode := 72.
Definition CHECKSUM_ERROR : ErrorCode := 73.
Definition BUFFER_OVERFLOW : ErrorCode := 74.
Definition BUFFER_UNDERFLOW : ErrorCode := 75.
Definition INVALID_DATA : ErrorCode := 76.
(* Device/hardware errors (100-199) *)
Definition DEVICE_NOT_FOUND : ErrorCode := 100.
Definition DEVICE_ERROR : ErrorCode := 101.
Definition DEVICE_BUSY : ErrorCode := 102.
Definition DEVICE_DISCONNECTED : ErrorCode := 103.
Definition HARDWARE_FAILURE : ErrorCode := 104.
(* Communication errors (200-299) *)
Definition COMMUNICATION_ERROR : ErrorCode := 200.
Definition CONNECTION_FAILED : ErrorCode := 201.
Definition CONNECTION_LOST : ErrorCode := 202.
Definition CONNECTION_REFUSED : ErrorCode := 203.
Definition PROTOCOL_ERROR : ErrorCode := 204.
Definition SEND_FAILED : ErrorCode := 205.
Definition RECEIVE_FAILED : ErrorCode := 206.
(* Storage errors (300-399) *)
Definition STORAGE_ERROR : ErrorCode := 300.
Definition STORAGE_FULL : ErrorCode := 301.
Definition FILE_NOT_FOUND : ErrorCode := 302.
Definition FILE_EXISTS : ErrorCode := 303.
Definition MOUNT_FAILED : ErrorCode := 304.
(* Network errors (400-499) *)
Definition NETWORK_ERROR : ErrorCode := 400.
Definition NETWORK_UNREACHABLE : ErrorCode := 401.
Definition HOST_UNREACHABLE : ErrorCode := 402.
Definition DNS_FAILED : ErrorCode := 403.
Definition SSL_ERROR : ErrorCode := 404.
End Code.

(** The enumerators of [ErrorCode], in declaration order. *)
Definition declared_codes : list ErrorCode :=
  [ Code.OK; Code.SUCCESS;
    Code.UNKNOWN_ERROR; Code.NOT_INITIALIZED; Code.ALREADY_INITIALIZED;
    Code.INVALID_PARAMETER; Code.INVALID_STATE; Code.NOT_SUPPORTED;
    Code.NOT_IMPLEMENTED; Code.BUSY; Code.WOULD_BLOCK;
    Code.OUT_OF_MEMORY; Code.RESOURCE_EXHAUSTED; Code.RESOURCE_NOT_FOUND;
    Code.RESOURCE_LOCKED; Code.RESOURCE_UNAVAILABLE;
    Code.TIMEOUT; Code.MUTEX_ERROR; Code.SEMAPHORE_ERROR;
    Code.DEADLOCK_DETECTED; Code.QUEUE_FULL; Code.QUEUE_EMPTY;
    Code.IO_ERROR; Code.READ_ERROR; Code.WRITE_ERROR; Code.PERMISSION_DENIED;
    Code.DATA_NOT_READY; Code.DATA_CORRUPTED; Code.CRC_ERROR;
    Code.CHECKSUM_ERROR; Code.BUFFER_OVERFLOW; Code.BUFFER_UNDERFLOW;
    Code.INVALID_DATA;
    Code.DEVICE_NOT_FOUND; Code.DEVICE_ERROR; Code.DEVICE_BUSY;
    Code.DEVICE_DISCONNECTED; Code.HARDWARE_FAILURE;
    Code.COMMUNICATION_ERROR; Code.CONNECTION_FAILED; Code.CONNECTION_LOST;
    Code.CONNECTION_REFUSED; Code.PROTOCOL_ERROR; Code.SEND_FAILED;
    Code.RECEIVE_FAILED;
    Code.STORAGE_ERROR; Code.STORAGE_FULL; Code.FILE_NOT_FOUND;
    Code.FILE_EXISTS; Code.MOUNT_FAILED;
    Code.NETWORK_ERROR; Code.NETWORK_UNREACHABLE; Code.HOST_UNREACHABLE;
    Code.DNS_FAILED; Code.SSL_ERROR ].

(** Membership in the enumerator list, as a test. *)
Definition is_declared (code : ErrorCode) : bool :=
  existsb (Z.eqb code) declared_codes.

(** [errorCodeToString]: the [switch] over the enumerators, with its
    [default] arm.  The case labels are the enumerators' numeric values. *)
Definition errorCodeToString (code : ErrorCode) : string :=
  match code with
  | 0 => "OK"
  | 1 => "Unknown error"
  | 2 => "Not initialized"
  | 3 => "Already initialized"
  | 4 => "Invalid parameter"
  | 5 => "Invalid state"
  | 6 => "Not supported"
  | 7 => "Not implemented"
  | 8 => "Busy"
  | 9 => "Would block"
  | 10 => "Out of memory"
  | 11 => "Resource exhausted"
  | 12 => "Resource not found"
  | 13 => "Resource locked"
  | 14 => "Resource unavailable"
  | 30 => "Timeout"
  | 31 => "Mutex error"
  | 32 => "Semaphore error"
  | 33 => "Deadlock detected"
  | 34 => "Queue full"
  | 35 => "Queue empty"
  | 50 => "I/O error"
  | 51 => "Read error"
  | 52 => "Write error"
  | 53 => "Permission denied"
  | 70 => "Data not ready"
  | 71 => "Data corrupted"
  | 72 => "CRC error"
  | 73 => "Checksum error"
  | 74 => "Buffer overflow"
  | 75 => "Buffer underflow"
  | 76 => "Invalid data"
  | 100 => "Device not found"
  | 101 => "Device error"
  | 102 => "Device busy"
  | 103 => "Device disconnected"
  | 104 => "Hardware failure"
  | 200 => "Communication error"
  | 201 => "Connection failed"
  | 202 => "Connection lost"
  | 203 => "Connection refused"
  | 204 => "Protocol error"
  | 205 => "Send failed"
  | 206 => "Receive failed"
  | 300 => "Storage error"
  | 301 => "Storage full"
  | 302 => "File not found"
  | 303 => "File exists"
  | 304 => "Mount failed"
  | 400 => "Network error"
  | 401 => "Network unreachable"
  | 402 => "Host unreachable"
  | 403 => "DNS failed"
  | 404 => "SSL error"
  | _ => "Unknown error code"
  end.

(** [isSuccess] and [isError] on error codes. *)
Definition isSuccess (code : ErrorCode) : bool := code =? Code.OK.
Definition isError (code : ErrorCode) : bool := negb (code =? Code.OK).


(* ===================================================================== *)
(** ** Side effects of caller-supplied code *)
(* ===================================================================== *)

(** A computation that may read and change a state of type [S] before it
    produces its result: what a C++ callable or expression can do. *)
Definition Eff (S A : Type) : Type := S -> A * S.

Definition ret {S A : Type} (a : A) : Eff S A := fun s => (a, s).

Definition bind {S A B : Type} (m : Eff S A) (k : A -> Eff S B) : Eff S B :=
  fun s => let (a, s') := m s in k a s'.

Notation "x <- m ;; k" := (bind m (fun x => k))
  (at level 61, m at next level, right associativity).

(** A callable without side effects. *)
Definition pure_call {S A B : Type} (f : A -> B) : A -> Eff S B :=
  fun a => ret (f a).

(** A callable instrumented with an invocation counter: every call adds one
    to the state. *)
Definition counted {A B : Type} (f : A -> B) : A -> Eff nat B :=
  fun a n => (f a, S n).

(** An expression instrumented the same way: every evaluation adds one. *)
Definition counted_expr {A : Type} (a : A) : Eff nat A :=
  fun n => (a, S n).

(* ===================================================================== *)
(** ** Result.h *)
(* ===================================================================== *)

(** What the class template asks of its parameters.  [E] must admit
    [static_cast<E>(0)], the value stored in the error slot of a success;
    [T] must be default-constructible, because the error constructors
    value-initialize the value slot with [value_()]. *)
Class ErrorType (E : Type) : Type := { static_cast_zero : E }.
Class DefaultConstructible (T : Type) : Type := { value_init : T }.

#[global] Instance ErrorCode_ErrorType : ErrorType ErrorCode :=
  {| static_cast_zero := static_cast_ErrorCode 0 |}.

(** [int()] is zero. *)
#[global] Instance int_DefaultConstructible : DefaultConstructible Z :=
  {| value_init := 0 |}.

(** A type [R] with a static member [R::error(E)], as [andThen] requires of
    the type its callable returns. *)
Class HasStaticError (R E : Type) : Type := { static_error : E -> R }.

(** A type usable as the operand of [!], through [explicit operator bool]. *)
Class ContextuallyBool (R : Type) : Type := { as_bool : R -> bool }.

(** *** The specialization [Result<void, E>] *)
Module ResultVoid.

Record t (E : Type) : Type := mk { error_ : E; hasValue_ : bool }.
Arguments mk {E} _ _.
Arguments error_ {E} _.
Arguments hasValue_ {E} _.

Section Members.
Context {E : Type} `{ErrorType E}.

(** [Result()] *)
Definition ctor_default : t E := mk static_cast_zero true.
(** [explicit Result(E error)] *)
Definition ctor_error (error : E) : t E := mk error false.
(** [explicit Result(SuccessTag)] *)
Definition ctor_ok_tag : t E := mk static_cast_zero true.
(** [Result(ErrorTag, E error)] *)
Definition ctor_err_tag (error : E) : t E := mk error false.

(** [static Result ok()] *)
Definition ok : t E := ctor_default.
(** [static Result error(E error)] *)
Definition error (error : E) : t E := ctor_error error.

Definition isOk (r : t E) : bool := hasValue_ r.
Definition isError (r : t E) : bool := negb (hasValue_ r).
Definition operator_bool (r : t E) : bool := hasValue_ r.
(** The accessor [E error() const]. *)
Definition error_of (r : t E) : E := error_ r.
End Members.

End ResultVoid.

#[global] Instance ResultVoid_HasStaticError (E : Type) `{ErrorType E} :
  HasStaticError (ResultVoid.t E) E := {| static_error := ResultVoid.error |}.
#[global] Instance ResultVoid_ContextuallyBool (E : Type) :
  ContextuallyBool (ResultVoid.t E) := {| as_bool := ResultVoid.operator_bool |}.

(** *** The primary template [Result<T, E>] *)
Module Result.

Record t (T E : Type) : Type :=
  mk { value_ : T; error_ : E; hasValue_ : bool }.
Arguments mk {T E} _ _ _.
Arguments value_ {T E} _.
Arguments error_ {T E} _.
Arguments hasValue_ {T E} _.

Section Members.
Context {T E : Type} `{DefaultConstructible T} `{ErrorType E}.

(** [explicit Result(const T& value)] *)
Definition ctor_copy (value : T) : t T E := mk value static_cast_zero true.
(** [explicit Result(T&& value)]: the moved value is the value. *)
Definition ctor_move (value : T) : t T E := mk value static_cast_zero true.
(** [explicit Result(E error)] *)
Definition ctor_error (error : E) : t T E := mk value_init error false.
(** [Result(SuccessTag, const T& value)] *)
Definition ctor_ok_tag (value : T) : t T E :=
  mk value static_cast_zero true.
(** [Result(ErrorTag, E error)] *)
Definition ctor_err_tag (error : E) : t T E := mk value_init error false.

(** [static Result ok(const T& value)] *)
Definition ok (value : T) : t T E := ctor_copy value.
(** [static Result ok(T&& value)] *)
Definition ok_move (value : T) : t T E := ctor_move value.
(** [static Result error(E error)] *)
Definition error (error : E) : t T E := ctor_error error.

Definition isOk (r : t T E) : bool := hasValue_ r.
Definition isError (r : t T E) : bool := negb (hasValue_ r).
Definition operator_bool (r : t T E) : bool := hasValue_ r.

(** [value()]: the three overloads ([&], [const&], [&&]) all hand out
    the member [value_], whatever the flag says.  These are the reads. *)
Definition value (r : t T E) : T := value_ r.
Definition value_const (r : t T E) : T := value_ r.
Definition value_rvalue (r : t T E) : T := value_ r.


(** The accessor [E error() const]: the member [error_], whatever the
    flag says. *)
Definition error_of (r : t T E) : E := error_ r.

(** [valueOr], borrowing and consuming form. *)
Definition valueOr (r : t T E) (defaultValue : T) : T :=
  if hasValue_ r then value_ r else defaultValue.
Definition valueOr_rvalue (r : t T E) (defaultValue : T) : T :=
  if hasValue_ r then value_ r else defaultValue.
End Members.

Section Combinators.
Context {S T U E : Type}.
Context `{DefaultConstructible U} `{ErrorType E}.

(** [map]: [ResultType] is [Result<U, E>] for [U] the type [f] returns. *)
Definition map (r : t T E) (f : T -> Eff S U) : Eff S (t U E) :=
  if hasValue_ r
  then (u <- f (value_ r) ;; ret (ok u))
  else ret (error (error_ r)).

(** [andThen]: [ResultType] is whatever [f] returns, and must offer the
    static member [error]. *)
Definition andThen {R : Type} `{HasStaticError R E}
    (r : t T E) (f : T -> Eff S R) : Eff S R :=
  if hasValue_ r
  then f (value_ r)
  else ret (static_error (error_ r)).
End Combinators.

End Result.

#[global] Instance Result_HasStaticError (T E : Type)
    `{DefaultConstructible T} `{ErrorType E} :
  HasStaticError (Result.t T E) E := {| static_error := Result.error |}.
#[global] Instance Result_ContextuallyBool (T E : Type) :
  ContextuallyBool (Result.t T E) := {| as_bool := Result.operator_bool |}.

(** [makeOk<T, E>(T&& value)] *)
Definition makeOk {T E : Type} `{ErrorType E} (value : T) : Result.t T E :=
  Result.ok_move value.
(** [makeOk<E>()] *)
Definition makeOk_void {E : Type} `{ErrorType E} : ResultVoid.t E :=
  ResultVoid.ok.
(** [makeError<T, E>(E error)] *)
Definition makeError {T E : Type} `{DefaultConstructible T} (error : E) :
  Result.t T E := Result.error error.

(** The callable of the repository's [andThen] test:
    [[](int x) -> Result<int> { if (x == 0) return error(INVALID_PARAMETER);
      return ok(100 / x); }]. *)
Definition divide (x : Z) : Result.t Z ErrorCode :=
  if x =? 0 then Result.error Code.INVALID_PARAMETER
  else Result.ok (Z.quot 100 x).

(** The Results the five constructors of the primary template produce.
    The factories, the helpers and [map] return through one of them;
    [andThen] does too, or hands on what its callable returned. *)
Inductive constructed {T E : Type} `{DefaultConstructible T} `{ErrorType E} :
  Result.t T E -> Prop :=
| constructed_copy (v : T) : constructed (Result.ctor_copy v)
| constructed_move (v : T) : constructed (Result.ctor_move v)
| constructed_error (e : E) : constructed (Result.ctor_error e)
| constructed_ok_tag (v : T) : constructed (Result.ctor_ok_tag v)
| constructed_err_tag (e : E) : constructed (Result.ctor_err_tag e).


(* ===================================================================== *)
(** ** LibraryCommon.h: the propagation macros *)
(* ===================================================================== *)

(** How a statement inside a function body ends: the function has returned
    [r], or control goes on to the next statement with [a] in hand. *)
Inductive flow (R A : Type) : Type :=
| Returned (r : R)
| Continues (a : A).
Arguments Returned {R A} r.
Arguments Continues {R A} a.

(** Statement sequencing: nothing after a [return] runs. *)
Definition then_ {S R A B : Type}
    (stmt : Eff S (flow R A)) (rest : A -> Eff S (flow R B)) :
  Eff S (flow R B) :=
  o <- stmt ;;
  match o with
  | Returned r => ret (Returned r)
  | Continues a => rest a
  end.

(** The final [return e;] of a body. *)
Definition return_ {S R A : Type} (e : Eff S R) : Eff S (flow R A) :=
  r <- e ;; ret (Returned r).

(** [RETURN_IF_ERROR(expr)]:
    [do { auto _result = (expr); if (!_result) { return _result; } } while (0)].
    The [return] hands back [_result] itself, so the enclosing function
    returns the type of [expr]. *)
Definition RETURN_IF_ERROR {S R : Type} `{ContextuallyBool R}
    (expr : Eff S R) : Eff S (flow R unit) :=
  _result <- expr ;;
  if negb (as_bool _result)
  then ret (Returned _result)
  else ret (Continues tt).

(** The usage of the macro's documentation:
    [Result<void> doSomething() { RETURN_IF_ERROR(step1());
     RETURN_IF_ERROR(step2()); return Result<void>::ok(); }]. *)
Definition doSomething {S E : Type} `{ErrorType E}
    (step1 step2 : Eff S (ResultVoid.t E)) :
  Eff S (flow (ResultVoid.t E) unit) :=
  then_ (RETURN_IF_ERROR step1) (fun _ =>
  then_ (RETURN_IF_ERROR step2) (fun _ =>
  return_ (ret ResultVoid.ok))).

(** [ASSIGN_OR_RETURN(var, expr)]:
    [auto _temp = (expr);
     if (!_temp) { return decltype(_temp)::error(_temp.error()); }
     var = std::move(_temp).value()].
    The early [return] builds a new error Result of the type of [expr];
    otherwise the statement binds the held value.  [value()] exists on the
    primary template only, so [expr] is a value-carrying Result. *)
Definition ASSIGN_OR_RETURN {S T E : Type} `{DefaultConstructible T}
    (expr : Eff S (Result.t T E)) : Eff S (flow (Result.t T E) T) :=
  _temp_result <- expr ;;
  if negb (Result.operator_bool _temp_result)
  then ret (Returned (Result.error (Result.error_of _temp_result)))
  else ret (Continues (Result.value_rvalue _temp_result)).

(** *** [RETURN_ERROR_IF]: what its expansion names

    [#define RETURN_ERROR_IF(condition, error)
       do { if (condition) { return decltype(error)::error(error); } } while (0)]

    The returned expression calls a static member of [decltype(error)], the
    type of the macro's second argument, with that argument.  Whether such a
    member exists is settled by member lookup, modelled here on the types
    this library declares. *)
Inductive cxx_type : Type :=
| ty_bool
| ty_int
| ty_ErrorCode                    (* enum class ErrorCode : int16_t *)
| ty_Result (T : cxx_type)        (* Result<T, ErrorCode> *)
| ty_Result_void.                 (* Result<void, ErrorCode> *)

Fixpoint cxx_type_eqb (a b : cxx_type) : bool :=
  match a, b with
  | ty_bool, ty_bool => true
  | ty_int, ty_int => true
  | ty_ErrorCode, ty_ErrorCode => true
  | ty_Result a', ty_Result b' => cxx_type_eqb a' b'
  | ty_Result_void, ty_Result_void => true
  | _, _ => false
  end.

(** The one-argument static member functions of a type, by name, with
    parameter and return type.  Scalar and enumeration types have none;
    [Result<T, E>] has [ok(T)] and [error(E)]; [Result<void, E>] has
    [error(E)] (its [ok] takes no argument). *)
Definition static_member (X : cxx_type) (name : string) :
  option (cxx_type * cxx_type) :=
  match X with
  | ty_Result T =>
      if String.eqb name "ok" then Some (T, X)
      else if String.eqb name "error" then Some (ty_ErrorCode, X)
      else None
  | ty_Result_void =>
      if String.eqb name "error" then Some (ty_ErrorCode, X) else None
  | ty_bool | ty_int | ty_ErrorCode => None
  end.

(** The type of the expression [RETURN_ERROR_IF] returns, if it is
    well-formed, for a second argument of type [error_ty].  The preprocessor
    substitutes the parameter [error] at each of its three occurrences, the
    member name included: [member] is the name the expansion ends up with,
    which is ["error"] only when the argument is itself spelled [error].
    Where the lookup finds a member, the argument is of the class type
    [Result] itself, which converts implicitly to nothing (its conversion to
    [bool] is explicit): it fits only a parameter of its own type. *)
Definition RETURN_ERROR_IF_type (member : string) (error_ty : cxx_type) :
  option cxx_type :=
  match static_member error_ty member with
  | Some (param, res) =>
      if cxx_type_eqb error_ty param then Some res else None
  | None => None
  end.

(* ===================================================================== *)
(** ** LibraryCommon.h: ScopeGuard *)
(* ===================================================================== *)

(** [ScopeGuard<F>]: the cleanup callable and the flag that arms it.  The
    callable takes no argument and is run for its side effects. *)
Module ScopeGuard.

Record t (S : Type) : Type := mk { func_ : Eff S unit; active_ : bool }.
Arguments mk {S} _ _.
Arguments func_ {S} _.
Arguments active_ {S} _.

Section Members.
Context {S : Type}.

(** [explicit ScopeGuard(F&& func)] *)
Definition ctor (func : Eff S unit) : t S := mk func true.

(** [~ScopeGuard()]: [if (active_) { func_(); }] *)
Definition dtor (g : t S) : Eff S unit :=
  if active_ g then func_ g else ret tt.

(** [void dismiss()] *)
Definition dismiss (g : t S) : t S := mk (func_ g) false.

(** [ScopeGuard(ScopeGuard&& other)]: the new guard takes the callable and
    the flag of [other], then [other] is dismissed.  The pair is the new
    guard and [other] as the constructor leaves it. *)
Definition move_ctor (other : t S) : t S * t S :=
  (mk (func_ other) (active_ other), dismiss other).
End Members.

End ScopeGuard.

(** [makeScopeGuard(F&& func)] *)
Definition makeScopeGuard {S : Type} (func : Eff S unit) : ScopeGuard.t S :=
  ScopeGuard.ctor func.

(** A cleanup instrumented with a run counter. *)
Definition counted_cleanup : Eff nat unit := fun n => (tt, Datatypes.S n).

(* ===================================================================== *)
(** ** Properties of the label lookup *)
(* ===================================================================== *)

(** Walks the decision tree of a [match] on a binary number until every
    branch ends in a literal. *)
Ltac split_switch :=
  repeat match goal with
         | |- context [match ?p with xH => _ | xO _ => _ | xI _ => _ end] =>
             destruct p
         end.

Lemma errorCodeToString_cases (code : ErrorCode) :
  if is_declared code
  then errorCodeToString code <> ""
  else errorCodeToString code = "Unknown error code".
Proof.
  destruct code as [ | p | p ]; try (vm_compute; congruence).
  unfold errorCodeToString.
  split_switch; vm_compute; congruence.
Qed.

Lemma is_declared_In (code : ErrorCode) :
  is_declared code = true <-> In code declared_codes.
Proof.
  unfold is_declared. rewrite existsb_exists. split.
  - intros [x [Hin Heq]]. apply Z.eqb_eq in Heq. now subst.
  - intros Hin. exists code. split; [assumption | apply Z.eqb_refl].
Qed.

Lemma int16_wrap_range (n : Z) : -32768 <= int16_wrap n < 32768.
Proof.
  unfold int16_wrap.
  pose proof (Z.mod_pos_bound (n + 32768) 65536 ltac:(lia)). lia.
Qed.

Lemma int16_wrap_id (n : Z) : -32768 <= n < 32768 -> int16_wrap n = n.
Proof.
  intros Hn. unfold int16_wrap. rewrite Z.mod_small by lia. lia.
Qed.

(** Every enumerator is a value of the underlying type, so coercion leaves
    it alone. *)
Lemma declared_codes_int16 (code : ErrorCode) :
  In code declared_codes -> static_cast_ErrorCode code = code.
Proof.
  intros Hin. apply int16_wrap_id.
  simpl in Hin.
  repeat (destruct Hin as [<- | Hin]; [vm_compute; split; congruence | ]).
  contradiction.
Qed.

(** The two predicates on codes split the values of [ErrorCode] in two. *)
Lemma isSuccess_isError_split (code : ErrorCode) :
  isError code = negb (isSuccess code)
  /\ (isSuccess code = true <-> code = Code.OK).
Proof.
  split; [reflexivity | ].
  unfold isSuccess. apply Z.eqb_eq.
Qed.

(** C9 - [errorCodeToString] is total: a declared identifier gets a
    non-empty label, and a number coerced into [ErrorCode] that is not a
    declared identifier gets the fixed text "Unknown error code". *)
Theorem errorCodeToString_total :
  (forall code : ErrorCode,
      In code declared_codes -> errorCodeToString code <> "")
  /\ (forall n : Z,
         ~ In (static_cast_ErrorCode n) declared_codes ->
         errorCodeToString (static_cast_ErrorCode n) = "Unknown error code").
Proof.
  split.
  - intros code Hin. apply is_declared_In in Hin.
    pose proof (errorCodeToString_cases code) as Hc.
    now rewrite Hin in Hc.
  - intros n Hout.
    pose proof (errorCodeToString_cases (static_cast_ErrorCode n)) as Hc.
    destruct (is_declared (static_cast_ErrorCode n)) eqn:Hd.
    + apply is_declared_In in Hd. contradiction.
    + exact Hc.
Qed.

Lemma errorCodeToString_total_witness :
  errorCodeToString Code.TIMEOUT <> ""
  /\ errorCodeToString (static_cast_ErrorCode 9999) = "Unknown error code".
Proof.
  destruct errorCodeToString_total as [Hdecl Hunknown]. split.
  - apply Hdecl. vm_compute. tauto.
  - apply Hunknown. vm_compute. intuition discriminate.
Defined.

(* ===================================================================== *)
(** ** Properties of the Result container *)
(* ===================================================================== *)

Section ResultFacts.
Context {T E : Type} `{DefaultConstructible T} `{ErrorType E}.

Lemma isError_negb_isOk (r : Result.t T E) :
  Result.isError r = negb (Result.isOk r).
Proof. reflexivity. Qed.

Lemma void_isError_negb_isOk (r : ResultVoid.t E) :
  ResultVoid.isError r = negb (ResultVoid.isOk r).
Proof. reflexivity. Qed.

(** The factories and helpers return through the constructors. *)
Lemma ok_constructed (v : T) : constructed (Result.ok v).
Proof. apply constructed_copy. Qed.

Lemma ok_move_constructed (v : T) : constructed (Result.ok_move v).
Proof. apply constructed_move. Qed.

Lemma error_constructed (e : E) : constructed (Result.error (T:=T) e).
Proof. apply constructed_error. Qed.

Lemma makeOk_constructed (v : T) : constructed (makeOk (E:=E) v).
Proof. apply constructed_move. Qed.

Lemma makeError_constructed (e : E) : constructed (makeError (T:=T) e).
Proof. apply constructed_error. Qed.

(** What the constructors establish: a success has the zero code in its
    error slot, an error has a value-initialized value slot. *)
Lemma constructed_slots (r : Result.t T E) :
  constructed r ->
  if Result.hasValue_ r
  then Result.error_ r = static_cast_zero
  else Result.value_ r = value_init.
Proof. intros Hr. destruct Hr; reflexivity. Qed.


Lemma valueOr_ok (v d : T) : Result.valueOr (E:=E) (Result.ok v) d = v.
Proof. reflexivity. Qed.

Lemma valueOr_error (e : E) (d : T) : Result.valueOr (Result.error e) d = d.
Proof. reflexivity. Qed.
End ResultFacts.

(** C1 - For a Result of either shape, exactly one of [isOk] and [isError]
    is true, and the boolean conversion agrees with [isOk]. *)
Theorem isOk_isError_exclusive (T E : Type)
    (r : Result.t T E) (rv : ResultVoid.t E) :
  ((Result.isOk r = true /\ Result.isError r = false)
   \/ (Result.isOk r = false /\ Result.isError r = true))
  /\ Result.operator_bool r = Result.isOk r
  /\ ((ResultVoid.isOk rv = true /\ ResultVoid.isError rv = false)
      \/ (ResultVoid.isOk rv = false /\ ResultVoid.isError rv = true))
  /\ ResultVoid.operator_bool rv = ResultVoid.isOk rv.
Proof.
  rewrite isError_negb_isOk, void_isError_negb_isOk.
  unfold Result.operator_bool, ResultVoid.operator_bool.
  destruct (Result.isOk r) eqn:Hr, (ResultVoid.isOk rv) eqn:Hv;
    unfold Result.isOk in Hr; unfold ResultVoid.isOk in Hv;
    rewrite Hr, Hv; simpl; intuition.
Qed.

(** C4 - [Result::ok(v)] is a success whose [value()] is [v]. *)
Theorem ok_value_roundtrip (T E : Type) `{ErrorType E} (v : T) :
  Result.isOk (Result.ok (E:=E) v) = true
  /\ Result.value (Result.ok (E:=E) v) = v
  /\ Result.value_const (Result.ok (E:=E) v) = v
  /\ Result.isOk (Result.ok_move (E:=E) v) = true
  /\ Result.value_rvalue (Result.ok_move (E:=E) v) = v.
Proof. repeat split. Qed.

(** C5 - For an error identifier [e] other than the success identifier,
    [Result::error(e)] is an error whose [error()] is [e], in the
    value-carrying Result and in the void specialization. *)
Theorem error_roundtrip (T E : Type) `{DefaultConstructible T} `{ErrorType E}
    (e : E) :
  e <> static_cast_zero ->
  (Result.isError (Result.error (T:=T) e) = true
   /\ Result.error_of (Result.error (T:=T) e) = e)
  /\ (ResultVoid.isError (ResultVoid.error e) = true
      /\ ResultVoid.error_of (ResultVoid.error e) = e).
Proof. intros _. repeat split. Qed.

Lemma error_roundtrip_witness :
  Code.INVALID_PARAMETER <> static_cast_zero
  /\ (Result.isError (Result.error (T:=Z) Code.INVALID_PARAMETER) = true
      /\ Result.error_of (Result.error (T:=Z) Code.INVALID_PARAMETER)
         = Code.INVALID_PARAMETER)
  /\ (ResultVoid.isError (ResultVoid.error Code.INVALID_PARAMETER) = true
      /\ ResultVoid.error_of (ResultVoid.error Code.INVALID_PARAMETER)
         = Code.INVALID_PARAMETER).
Proof.
  assert (Hne : Code.INVALID_PARAMETER <> static_cast_zero)
    by (vm_compute; discriminate).
  split; [exact Hne | ].
  exact (error_roundtrip Z ErrorCode Code.INVALID_PARAMETER Hne).
Defined.

(** C8 - [Result::error] applied to the success identifier is defined and
    unguarded: the outcome is an error, not a success, and [error()] gives
    the success identifier back, in both shapes. *)
Theorem error_of_success_identifier (T E : Type)
    `{DefaultConstructible T} `{ErrorType E} :
  (Result.isError (Result.error (T:=T) (E:=E) static_cast_zero) = true
   /\ Result.isOk (Result.error (T:=T) (E:=E) static_cast_zero) = false
   /\ Result.error_of (Result.error (T:=T) (E:=E) static_cast_zero)
      = static_cast_zero)
  /\ (ResultVoid.isError (ResultVoid.error (E:=E) static_cast_zero) = true
      /\ ResultVoid.isOk (ResultVoid.error (E:=E) static_cast_zero) = false
      /\ ResultVoid.error_of (ResultVoid.error (E:=E) static_cast_zero)
         = static_cast_zero).
Proof. repeat split. Qed.





(* ===================================================================== *)
(** ** Properties of the combinators *)
(* ===================================================================== *)

Section CombinatorFacts.
Context {S T U E : Type} `{DefaultConstructible U} `{ErrorType E}.

Lemma map_run_ok (r : Result.t T E) (f : T -> Eff S U) (s : S) :
  Result.hasValue_ r = true ->
  Result.map r f s
  = (Result.ok (fst (f (Result.value_ r) s)), snd (f (Result.value_ r) s)).
Proof.
  intros Hflag. unfold Result.map, bind, ret. rewrite Hflag.
  now destruct (f (Result.value_ r) s).
Qed.

Lemma map_run_error (r : Result.t T E) (f : T -> Eff S U) (s : S) :
  Result.hasValue_ r = false ->
  Result.map r f s = (Result.error (Result.error_ r), s).
Proof. intros Hflag. unfold Result.map, ret. now rewrite Hflag. Qed.

Lemma andThen_run_ok {R : Type} `{HasStaticError R E}
    (r : Result.t T E) (f : T -> Eff S R) (s : S) :
  Result.hasValue_ r = true ->
  Result.andThen r f s = f (Result.value_ r) s.
Proof. intros Hflag. unfold Result.andThen. now rewrite Hflag. Qed.

Lemma andThen_run_error {R : Type} `{HasStaticError R E}
    (r : Result.t T E) (f : T -> Eff S R) (s : S) :
  Result.hasValue_ r = false ->
  Result.andThen r f s = (static_error (Result.error_ r), s).
Proof. intros Hflag. unfold Result.andThen, ret. now rewrite Hflag. Qed.

Lemma isError_flag (r : Result.t T E) :
  Result.isError r = true -> Result.hasValue_ r = false.
Proof. unfold Result.isError. now destruct (Result.hasValue_ r). Qed.
End CombinatorFacts.

(** With a callable free of side effects, [map] is the plain function on
    Results and touches no state. *)
Lemma map_pure_call {S T U E : Type}
    `{DefaultConstructible U} `{ErrorType E}
    (f : T -> U) (r : Result.t T E) (s : S) :
  Result.map r (pure_call f) s
  = (if Result.isOk r
     then Result.ok (f (Result.value r))
     else Result.error (Result.error_of r), s).
Proof.
  unfold Result.map, Result.isOk, pure_call, bind, ret.
  now destruct (Result.hasValue_ r).
Qed.

(** The call-count test of the specification: a counted callable is called
    once by [map] on a success and not at all on an error. *)
Lemma map_call_count {T U E : Type}
    `{DefaultConstructible T} `{DefaultConstructible U} `{ErrorType E}
    (f : T -> U) (v : T) (e : E) (calls : nat) :
  Result.map (Result.ok v) (counted f) calls
  = (Result.ok (f v), Datatypes.S calls)
  /\ Result.map (Result.error (T:=T) e) (counted f) calls
     = (Result.error e, calls).
Proof. split; reflexivity. Qed.

Lemma andThen_call_count {T U E : Type}
    `{DefaultConstructible T} `{DefaultConstructible U} `{ErrorType E}
    (f : T -> Result.t U E) (v : T) (e : E) (calls : nat) :
  Result.andThen (Result.ok v) (counted f) calls = (f v, Datatypes.S calls)
  /\ Result.andThen (Result.error (T:=T) e) (counted f) calls
     = (Result.error e, calls).
Proof. split; reflexivity. Qed.

(** What [map] returns comes from a constructor, whatever it was given. *)
Lemma map_constructed {S T U E : Type}
    `{DefaultConstructible U} `{ErrorType E}
    (r : Result.t T E) (f : T -> Eff S U) (s : S) :
  constructed (fst (Result.map r f s)).
Proof.
  destruct (Result.hasValue_ r) eqn:Hflag.
  - rewrite (map_run_ok r f s Hflag). apply constructed_copy.
  - rewrite (map_run_error r f s Hflag). apply constructed_error.
Qed.

(** C2 - [map]: on a success holding [v] the outcome is [Result::ok(f(v))]
    (after the one call of [f]); on an error it is a new Result with the
    same error identifier, and [f] is not invoked: the state [f] could have
    touched is left as it was. *)
Theorem map_spec (S T U E : Type) `{DefaultConstructible U} `{ErrorType E}
    (f : T -> Eff S U) (r : Result.t T E) (s : S) :
  (Result.isOk r = true ->
   Result.map r f s
   = (Result.ok (fst (f (Result.value r) s)), snd (f (Result.value r) s)))
  /\ (Result.isError r = true ->
      Result.map r f s = (Result.error (Result.error_of r), s)
      /\ Result.isError (fst (Result.map r f s)) = true
      /\ Result.error_of (fst (Result.map r f s)) = Result.error_of r).
Proof.
  split.
  - intros Hok. now apply map_run_ok.
  - intros Herr. apply isError_flag in Herr.
    rewrite (map_run_error r f s Herr). repeat split.
Qed.

Lemma map_spec_witness :
  Result.map (Result.ok (E:=ErrorCode) 21) (counted (fun x => x * 2)) 0%nat
  = (Result.ok 42, 1%nat)
  /\ Result.map (Result.error (T:=Z) Code.BUSY) (counted (fun x => x * 2))
       0%nat
     = (Result.error Code.BUSY, 0%nat).
Proof.
  split.
  - apply (map_spec nat Z Z ErrorCode (counted (fun x => x * 2))
             (Result.ok 21) 0%nat).
    reflexivity.
  - apply (map_spec nat Z Z ErrorCode (counted (fun x => x * 2))
             (Result.error Code.BUSY) 0%nat).
    reflexivity.
Defined.

(** C3 - [andThen]: on a success holding [v] the outcome is exactly what
    [f(v)] returns, its error included and not wrapped again; on an error
    [f] is not invoked and the error identifier goes unchanged into a
    Result of the type [f] returns, value-carrying or void. *)
Theorem andThen_spec (S T U E : Type)
    `{DefaultConstructible U} `{ErrorType E} (r : Result.t T E) (s : S) :
  (forall f : T -> Eff S (Result.t U E),
      (Result.isOk r = true -> Result.andThen r f s = f (Result.value r) s)
      /\ (Result.isError r = true ->
          Result.andThen r f s = (Result.error (Result.error_of r), s)))
  /\ (forall f : T -> Eff S (ResultVoid.t E),
         (Result.isOk r = true -> Result.andThen r f s = f (Result.value r) s)
         /\ (Result.isError r = true ->
             Result.andThen r f s
             = (ResultVoid.error (Result.error_of r), s))).
Proof.
  split; intros f; split; intros Hflag.
  - now apply andThen_run_ok.
  - apply isError_flag in Hflag.
    rewrite (andThen_run_error r f s Hflag). reflexivity.
  - now apply andThen_run_ok.
  - apply isError_flag in Hflag.
    rewrite (andThen_run_error r f s Hflag). reflexivity.
Qed.

Lemma andThen_spec_witness :
  Result.andThen (Result.ok 5) (counted divide) 0%nat
  = (Result.ok 20, 1%nat)
  /\ Result.andThen (Result.ok 0) (counted divide) 0%nat
     = (Result.error Code.INVALID_PARAMETER, 1%nat)
  /\ Result.andThen (Result.error (T:=Z) Code.TIMEOUT) (counted divide) 0%nat
     = (Result.error Code.TIMEOUT, 0%nat).
Proof.
  pose proof (andThen_spec nat Z Z ErrorCode (Result.ok 5) 0%nat)
    as [Hfive _].
  pose proof (andThen_spec nat Z Z ErrorCode (Result.ok 0) 0%nat)
    as [Hzero _].
  pose proof (andThen_spec nat Z Z ErrorCode (Result.error Code.TIMEOUT)
                0%nat) as [Herr _].
  split; [ | split].
  - apply (Hfive (counted divide)). reflexivity.
  - apply (Hzero (counted divide)). reflexivity.
  - apply (Herr (counted divide)). reflexivity.
Defined.

(* ===================================================================== *)
(** ** Properties of the propagation macros *)
(* ===================================================================== *)

Section MacroFacts.
Context {S R : Type} `{ContextuallyBool R}.

(** The macro runs [expr] once, from the state it starts in, and decides
    on the Result that run produced. *)
Lemma RETURN_IF_ERROR_run (expr : Eff S R) (s : S) :
  RETURN_IF_ERROR expr s
  = (if as_bool (fst (expr s))
     then Continues tt
     else Returned (fst (expr s)),
     snd (expr s)).
Proof.
  unfold RETURN_IF_ERROR, bind, ret.
  destruct (expr s) as [r s']. simpl. now destruct (as_bool r).
Qed.
End MacroFacts.

(** With an evaluation counter on the expression: one evaluation, on
    either outcome. *)
Lemma RETURN_IF_ERROR_evaluates_once {R : Type} `{ContextuallyBool R}
    (r : R) (evaluations : nat) :
  snd (RETURN_IF_ERROR (counted_expr r) evaluations)
  = Datatypes.S evaluations.
Proof. rewrite RETURN_IF_ERROR_run. reflexivity. Qed.

(** In the documented usage, a failing first step ends the function with
    that step's Result, and the second step is not evaluated. *)
Lemma doSomething_stops_at_first_error {S E : Type} `{ErrorType E}
    (step1 step2 : Eff S (ResultVoid.t E)) (s : S) :
  ResultVoid.isError (fst (step1 s)) = true ->
  doSomething step1 step2 s = (Returned (fst (step1 s)), snd (step1 s)).
Proof.
  intros Herr. unfold doSomething, then_, bind at 1.
  rewrite RETURN_IF_ERROR_run. simpl.
  unfold ResultVoid.isError in Herr. unfold ResultVoid.operator_bool.
  destruct (ResultVoid.hasValue_ (fst (step1 s))); [discriminate | reflexivity].
Qed.

(** C7 - [RETURN_IF_ERROR]: the expression is evaluated once; if its Result
    is an error the enclosing function returns that very Result, and if it
    is a success control continues; the same for a value-carrying Result
    and for the void specialization. *)
Theorem RETURN_IF_ERROR_spec (S T E : Type) (s : S) :
  (forall expr : Eff S (Result.t T E),
      (Result.isError (fst (expr s)) = true ->
       RETURN_IF_ERROR expr s = (Returned (fst (expr s)), snd (expr s)))
      /\ (Result.isOk (fst (expr s)) = true ->
          RETURN_IF_ERROR expr s = (Continues tt, snd (expr s))))
  /\ (forall expr : Eff S (ResultVoid.t E),
         (ResultVoid.isError (fst (expr s)) = true ->
          RETURN_IF_ERROR expr s = (Returned (fst (expr s)), snd (expr s)))
         /\ (ResultVoid.isOk (fst (expr s)) = true ->
             RETURN_IF_ERROR expr s = (Continues tt, snd (expr s)))).
Proof.
  split; intros expr; rewrite RETURN_IF_ERROR_run; simpl;
    unfold Result.isError, Result.isOk, Result.operator_bool,
      ResultVoid.isError, ResultVoid.isOk, ResultVoid.operator_bool;
    split; intros Hflag.
  - destruct (Result.hasValue_ (fst (expr s))); [discriminate | reflexivity].
  - now rewrite Hflag.
  - destruct (ResultVoid.hasValue_ (fst (expr s)));
      [discriminate | reflexivity].
  - now rewrite Hflag.
Qed.

Lemma RETURN_IF_ERROR_spec_witness :
  RETURN_IF_ERROR (counted_expr (Result.error (T:=Z) Code.IO_ERROR)) 0%nat
  = (Returned (Result.error Code.IO_ERROR), 1%nat)
  /\ RETURN_IF_ERROR (counted_expr (Result.ok (E:=ErrorCode) 7)) 0%nat
     = (Continues tt, 1%nat)
  /\ RETURN_IF_ERROR (counted_expr (ResultVoid.error Code.IO_ERROR)) 0%nat
     = (Returned (ResultVoid.error Code.IO_ERROR), 1%nat)
  /\ RETURN_IF_ERROR (counted_expr (ResultVoid.ok (E:=ErrorCode))) 0%nat
     = (Continues tt, 1%nat).
Proof.
  pose proof (RETURN_IF_ERROR_spec nat Z ErrorCode 0%nat) as [Hval Hvoid].
  split; [ | split; [ | split]].
  - apply (Hval (counted_expr (Result.error Code.IO_ERROR))). reflexivity.
  - apply (Hval (counted_expr (Result.ok 7))). reflexivity.
  - apply (Hvoid (counted_expr (ResultVoid.error Code.IO_ERROR))).
    reflexivity.
  - apply (Hvoid (counted_expr ResultVoid.ok)). reflexivity.
Defined.

(** No type is its own [Result] instantiation. *)
Lemma cxx_type_eqb_Result (T : cxx_type) :
  cxx_type_eqb (ty_Result T) T = false.
Proof. induction T; simpl; auto. Qed.

(** C6 - The expansion of [RETURN_ERROR_IF] is ill-formed: for the
    documented second argument, an [ErrorCode], the returned expression
    looks for a member of an enumeration type, whatever name is looked up;
    and no type of this library has a static member that accepts an
    argument of that same type. *)
Theorem RETURN_ERROR_IF_ill_formed (member : string) :
  RETURN_ERROR_IF_type member ty_ErrorCode = None
  /\ forall error_ty : cxx_type, RETURN_ERROR_IF_type member error_ty = None.
Proof.
  split; [reflexivity | ].
  intros error_ty. unfold RETURN_ERROR_IF_type.
  destruct error_ty as [ | | | T | ]; cbn [static_member]; try reflexivity.
  - destruct (String.eqb member "ok").
    + now rewrite cxx_type_eqb_Result.
    + now destruct (String.eqb member "error").
  - now destruct (String.eqb member "error").
Qed.

(* ===================================================================== *)
(** ** Further properties of the error codes *)
(* ===================================================================== *)

Lemma errorCodeToString_declared_label (code : ErrorCode) :
  if is_declared code
  then errorCodeToString code <> "Unknown error code"
  else errorCodeToString code = "Unknown error code".
Proof.
  destruct code as [ | p | p ]; try (vm_compute; congruence).
  unfold errorCodeToString.
  split_switch; vm_compute; congruence.
Qed.

Lemma not_declared_In (code : ErrorCode) :
  is_declared code = false <-> ~ In code declared_codes.
Proof.
  rewrite <- is_declared_In. now destruct (is_declared code).
Qed.

(** Among the enumerators, equal labels mean equal codes: checked pair by
    pair over the enumerator list. *)
Lemma declared_labels_distinct (c1 c2 : ErrorCode) :
  In c1 declared_codes -> In c2 declared_codes ->
  errorCodeToString c1 = errorCodeToString c2 -> c1 = c2.
Proof.
  intros H1 H2 Heq.
  assert (Hall :
    forallb (fun a =>
      forallb (fun b =>
        implb (String.eqb (errorCodeToString a) (errorCodeToString b))
              (a =? b))
        declared_codes) declared_codes = true) by (vm_compute; reflexivity).
  rewrite forallb_forall in Hall. specialize (Hall c1 H1).
  rewrite forallb_forall in Hall. specialize (Hall c2 H2).
  apply String.eqb_eq in Heq. rewrite Heq in Hall. simpl in Hall.
  now apply Z.eqb_eq.
Qed.

(** The fallback text marks exactly the values that are no enumerator: no
    enumerator is labelled "Unknown error code". *)
Theorem unknown_label_iff_undeclared (code : ErrorCode) :
  errorCodeToString code = "Unknown error code"
  <-> ~ In code declared_codes.
Proof.
  pose proof (errorCodeToString_declared_label code) as Hc.
  rewrite <- not_declared_In.
  destruct (is_declared code); split; intros Hx;
    try assumption; try reflexivity; try contradiction; discriminate.
Qed.

Lemma unknown_label_iff_undeclared_witness :
  ~ In (static_cast_ErrorCode 500) declared_codes
  /\ errorCodeToString (static_cast_ErrorCode 500) = "Unknown error code".
Proof.
  assert (Hout : ~ In (static_cast_ErrorCode 500) declared_codes)
    by (vm_compute; intuition discriminate).
  split; [exact Hout | ].
  apply (proj2 (unknown_label_iff_undeclared (static_cast_ErrorCode 500))).
  exact Hout.
Defined.

(** The label lookup tells the codes apart: two values with the same label
    are the same code, unless neither is an enumerator (both then carry the
    fallback text). *)
Theorem errorCodeToString_injective (c1 c2 : ErrorCode) :
  errorCodeToString c1 = errorCodeToString c2 ->
  c1 = c2 \/ (~ In c1 declared_codes /\ ~ In c2 declared_codes).
Proof.
  intros Heq.
  pose proof (errorCodeToString_declared_label c1) as H1.
  pose proof (errorCodeToString_declared_label c2) as H2.
  destruct (is_declared c1) eqn:D1, (is_declared c2) eqn:D2.
  - left. apply declared_labels_distinct; try assumption;
      now apply is_declared_In.
  - rewrite Heq in H1. contradiction.
  - rewrite <- Heq in H2. contradiction.
  - right. split; now apply not_declared_In.
Qed.

Lemma errorCodeToString_injective_witness :
  static_cast_ErrorCode 65566 = Code.TIMEOUT
  \/ (~ In (static_cast_ErrorCode 65566) declared_codes
      /\ ~ In Code.TIMEOUT declared_codes).
Proof.
  apply (errorCodeToString_injective (static_cast_ErrorCode 65566)
           Code.TIMEOUT).
  reflexivity.
Defined.

(** The code stored in a Result agrees with its flag in one direction: a
    success fresh from its constructor holds a code that [isSuccess]
    accepts, so a Result whose code [isError] flags is an error Result. *)
Theorem success_holds_success_code (T : Type) `{DefaultConstructible T}
    (r : Result.t T ErrorCode) :
  constructed r ->
  (Result.isOk r = true -> isSuccess (Result.error_of r) = true)
  /\ (isError (Result.error_of r) = true -> Result.isError r = true).
Proof.
  intros Hr. apply constructed_slots in Hr.
  unfold Result.isOk, Result.isError, Result.error_of, isError.
  destruct (Result.hasValue_ r); split; intros Hx;
    try reflexivity; try discriminate.
  - rewrite Hr. reflexivity.
  - rewrite Hr in Hx. discriminate.
Qed.

Lemma success_holds_success_code_witness :
  constructed (Result.ok (E:=ErrorCode) 42)
  /\ isSuccess (Result.error_of (Result.ok (E:=ErrorCode) 42)) = true
  /\ constructed (Result.error (T:=Z) Code.CRC_ERROR)
  /\ Result.isError (Result.error (T:=Z) Code.CRC_ERROR) = true.
Proof.
  pose proof (success_holds_success_code Z (Result.ok 42)
                (constructed_copy 42)) as [Hok _].
  pose proof (success_holds_success_code Z (Result.error Code.CRC_ERROR)
                (constructed_error Code.CRC_ERROR)) as [_ Herr].
  split; [apply constructed_copy | ].
  split; [apply Hok; reflexivity | ].
  split; [apply constructed_error | ].
  apply Herr. reflexivity.
Defined.

(* ===================================================================== *)
(** ** How the operations of Result compose *)
(* ===================================================================== *)

(** [map] keeps the outcome: a success stays a success and an error stays
    an error, whatever the callable does; and what it returns has the
    slots of a freshly constructed Result even when its input did not. *)
Theorem map_keeps_outcome (S T U E : Type)
    `{DefaultConstructible U} `{ErrorType E}
    (r : Result.t T E) (f : T -> Eff S U) (s : S) :
  Result.isOk (fst (Result.map r f s)) = Result.isOk r
  /\ Result.isError (fst (Result.map r f s)) = Result.isError r
  /\ constructed (fst (Result.map r f s)).
Proof.
  split; [ | split; [ | apply map_constructed]];
    unfold Result.isOk, Result.isError;
    destruct (Result.hasValue_ r) eqn:Hflag.
  - now rewrite (map_run_ok r f s Hflag).
  - now rewrite (map_run_error r f s Hflag).
  - now rewrite (map_run_ok r f s Hflag).
  - now rewrite (map_run_error r f s Hflag).
Qed.

(** Mapping the identity over a Result fresh from a constructor gives the
    same Result back, all three members included. *)
Theorem map_identity (S T E : Type)
    `{DefaultConstructible T} `{ErrorType E} (r : Result.t T E) (s : S) :
  constructed r ->
  Result.map r (fun v => ret v) s = (r, s).
Proof. intros Hr. destruct Hr; reflexivity. Qed.

Lemma map_identity_witness :
  Result.map (Result.ok (E:=ErrorCode) 3) (fun v => ret v) tt
  = (Result.ok 3, tt)
  /\ Result.map (Result.error (T:=Z) Code.BUSY) (fun v => ret v) tt
     = (Result.error Code.BUSY, tt).
Proof.
  split.
  - apply (map_identity unit Z ErrorCode (Result.ok 3) tt).
    apply constructed_copy.
  - apply (map_identity unit Z ErrorCode (Result.error Code.BUSY) tt).
    apply constructed_error.
Defined.

(** Two [map]s in a row are one [map] with the two callables chained: the
    same Result and the same effects, in the same order.  On a success
    that is [f] and then [g] on its output, wrapped in [Result::ok]; on an
    error neither callable runs and the error identifier comes out
    unchanged. *)
Theorem map_compose (S T U V E : Type)
    `{DefaultConstructible U} `{DefaultConstructible V} `{ErrorType E}
    (r : Result.t T E) (f : T -> Eff S U) (g : U -> Eff S V) (s : S) :
  bind (Result.map r f) (fun r1 => Result.map r1 g) s
  = Result.map r (fun x => bind (f x) g) s
  /\ (Result.isError r = true ->
      bind (Result.map r f) (fun r1 => Result.map r1 g) s
      = (Result.error (Result.error_of r), s))
  /\ (Result.isOk r = true ->
      bind (Result.map r f) (fun r1 => Result.map r1 g) s
      = (Result.ok (fst (g (fst (f (Result.value r) s))
                          (snd (f (Result.value r) s)))),
         snd (g (fst (f (Result.value r) s)) (snd (f (Result.value r) s))))).
Proof.
  unfold Result.isError, Result.isOk, Result.error_of, Result.value.
  unfold Result.map, bind, ret.
  destruct (Result.hasValue_ r); simpl.
  - destruct (f (Result.value_ r) s) as [u s1]. simpl.
    destruct (g u s1) as [v s2]. simpl.
    split; [reflexivity | split; [discriminate | reflexivity]].
  - split; [reflexivity | split; [reflexivity | discriminate]].
Qed.

Lemma map_compose_witness :
  bind (Result.map (Result.error (T:=Z) Code.BUSY) (counted (fun x => x * 2)))
       (fun r1 => Result.map r1 (counted (fun x => x + 1))) 0%nat
  = (Result.error Code.BUSY, 0%nat)
  /\ bind (Result.map (Result.ok (E:=ErrorCode) 21) (counted (fun x => x * 2)))
          (fun r1 => Result.map r1 (counted (fun x => x + 1))) 0%nat
     = (Result.ok 43, 2%nat).
Proof.
  pose proof (map_compose nat Z Z Z ErrorCode (Result.error Code.BUSY)
                (counted (fun x => x * 2)) (counted (fun x => x + 1)) 0%nat)
    as [_ [Herr _]].
  pose proof (map_compose nat Z Z Z ErrorCode (Result.ok 21)
                (counted (fun x => x * 2)) (counted (fun x => x + 1)) 0%nat)
    as [_ [_ Hok]].
  split.
  - apply Herr. reflexivity.
  - apply Hok. reflexivity.
Defined.

(** [map] is [andThen] with a callable that wraps its output in
    [Result::ok]. *)
Theorem map_as_andThen (S T U E : Type)
    `{DefaultConstructible U} `{ErrorType E}
    (r : Result.t T E) (f : T -> Eff S U) (s : S) :
  Result.map r f s
  = Result.andThen r (fun x => bind (f x) (fun u => ret (Result.ok u))) s.
Proof.
  unfold Result.map, Result.andThen. now destruct (Result.hasValue_ r).
Qed.

(** [andThen] with [Result::ok] as the callable gives back a Result fresh
    from a constructor unchanged. *)
Theorem andThen_ok_identity (S T E : Type)
    `{DefaultConstructible T} `{ErrorType E} (r : Result.t T E) (s : S) :
  constructed r ->
  Result.andThen r (fun v => ret (Result.ok v)) s = (r, s).
Proof. intros Hr. destruct Hr; reflexivity. Qed.

Lemma andThen_ok_identity_witness :
  Result.andThen (Result.ok (E:=ErrorCode) 3) (fun v => ret (Result.ok v)) tt
  = (Result.ok 3, tt)
  /\ Result.andThen (Result.error (T:=Z) Code.BUSY)
       (fun v => ret (Result.ok v)) tt
     = (Result.error Code.BUSY, tt).
Proof.
  split.
  - apply (andThen_ok_identity unit Z ErrorCode (Result.ok 3) tt).
    apply constructed_copy.
  - apply (andThen_ok_identity unit Z ErrorCode (Result.error Code.BUSY) tt).
    apply constructed_error.
Defined.

(** Chained [andThen]s may be regrouped: binding [f] and then [g] is
    binding the callable that runs [f] and binds [g] to its outcome.  The
    first error met is the outcome, and nothing after it runs: on an error
    input neither callable runs; when [f] fails on a success, its error
    identifier is the outcome and [g] does not run; when [f] succeeds the
    outcome is that of [g] on the value [f] produced. *)
Theorem andThen_assoc (S T U E R : Type)
    `{DefaultConstructible U} `{ErrorType E} `{HasStaticError R E}
    (r : Result.t T E) (f : T -> Eff S (Result.t U E))
    (g : U -> Eff S R) (s : S) :
  bind (Result.andThen r f) (fun r1 => Result.andThen r1 g) s
  = Result.andThen r
      (fun x => bind (f x) (fun r1 => Result.andThen r1 g)) s
  /\ (Result.isError r = true ->
      bind (Result.andThen r f) (fun r1 => Result.andThen r1 g) s
      = (static_error (Result.error_of r), s))
  /\ (Result.isOk r = true ->
      Result.isError (fst (f (Result.value r) s)) = true ->
      bind (Result.andThen r f) (fun r1 => Result.andThen r1 g) s
      = (static_error (Result.error_of (fst (f (Result.value r) s))),
         snd (f (Result.value r) s)))
  /\ (Result.isOk r = true ->
      Result.isOk (fst (f (Result.value r) s)) = true ->
      bind (Result.andThen r f) (fun r1 => Result.andThen r1 g) s
      = g (Result.value (fst (f (Result.value r) s)))
          (snd (f (Result.value r) s))).
Proof.
  split.
  - unfold Result.andThen at 1 3. unfold bind at 1.
    destruct (Result.hasValue_ r); reflexivity.
  - unfold Result.isError, Result.isOk, Result.error_of, Result.value.
    unfold bind, Result.andThen at 1 3 5.
    destruct (Result.hasValue_ r); simpl.
    + destruct (f (Result.value_ r) s) as [r1 s1]. simpl.
      unfold Result.andThen.
      destruct (Result.hasValue_ r1); simpl;
        split; [discriminate | split; intros _ Hf; try discriminate Hf;
                               reflexivity
               | discriminate | split; intros _ Hf; try discriminate Hf;
                                reflexivity ].
    + split; [reflexivity | split; intros Hr; discriminate Hr].
Qed.

Lemma andThen_assoc_witness :
  bind (Result.andThen (Result.error (T:=Z) Code.TIMEOUT) (counted divide))
       (fun r1 => Result.andThen r1 (counted divide)) 0%nat
  = (Result.error Code.TIMEOUT, 0%nat)
  /\ bind (Result.andThen (Result.ok 0) (counted divide))
          (fun r1 => Result.andThen r1 (counted divide)) 0%nat
     = (Result.error Code.INVALID_PARAMETER, 1%nat)
  /\ bind (Result.andThen (Result.ok 5) (counted divide))
          (fun r1 => Result.andThen r1 (counted divide)) 0%nat
     = (Result.ok 5, 2%nat).
Proof.
  pose proof (andThen_assoc nat Z Z ErrorCode (Result.t Z ErrorCode)
                (Result.error Code.TIMEOUT) (counted divide)
                (counted divide) 0%nat) as [_ [Herr _]].
  pose proof (andThen_assoc nat Z Z ErrorCode (Result.t Z ErrorCode)
                (Result.ok 0) (counted divide)
                (counted divide) 0%nat) as [_ [_ [Hfail _]]].
  pose proof (andThen_assoc nat Z Z ErrorCode (Result.t Z ErrorCode)
                (Result.ok 5) (counted divide)
                (counted divide) 0%nat) as [_ [_ [_ Hok]]].
  split; [ | split].
  - apply Herr. reflexivity.
  - apply Hfail; reflexivity.
  - apply Hok; reflexivity.
Defined.

(** [valueOr] commutes with [map] for a callable without side effects:
    mapping and then falling back on [f(d)] is [f] of the value-or-[d]. *)
Theorem valueOr_map (S T U E : Type)
    `{DefaultConstructible U} `{ErrorType E}
    (r : Result.t T E) (f : T -> U) (d : T) (s : S) :
  Result.valueOr (fst (Result.map r (pure_call f) s)) (f d)
  = f (Result.valueOr r d)
  /\ Result.valueOr_rvalue (fst (Result.map r (pure_call f) s)) (f d)
     = f (Result.valueOr_rvalue r d).
Proof.
  rewrite map_pure_call.
  unfold Result.valueOr, Result.valueOr_rvalue, Result.isOk, Result.value.
  now destruct (Result.hasValue_ r).
Qed.

(** [valueOr], in both forms, gives the held value of a success and the
    caller's default for an error, never the value-initialized slot of the
    error. *)
Theorem valueOr_roundtrip (T E : Type)
    `{DefaultConstructible T} `{ErrorType E} (v d : T) (e : E) :
  Result.valueOr (Result.ok (E:=E) v) d = v
  /\ Result.valueOr (Result.error e) d = d
  /\ Result.valueOr_rvalue (Result.ok_move (E:=E) v) d = v
  /\ Result.valueOr_rvalue (Result.error e) d = d.
Proof.
  split; [apply valueOr_ok | split; [apply valueOr_error | ]].
  split; reflexivity.
Qed.

(** The free helpers behave as the factories do: [makeOk(v)] is a success
    holding [v], [makeOk()] is a success, and [makeError(e)] is an error
    holding [e]. *)
Theorem make_helpers_roundtrip (T E : Type)
    `{DefaultConstructible T} `{ErrorType E} (v : T) (e : E) :
  (Result.isOk (makeOk (E:=E) v) = true
   /\ Result.value (makeOk (E:=E) v) = v)
  /\ ResultVoid.isOk (makeOk_void (E:=E)) = true
  /\ (Result.isError (makeError (T:=T) e) = true
      /\ Result.error_of (makeError (T:=T) e) = e)
  /\ makeOk (E:=E) v = Result.ok v
  /\ makeError (T:=T) e = Result.error e.
Proof. repeat split. Qed.

(* ===================================================================== *)
(** ** Further properties of the propagation macros *)
(* ===================================================================== *)

Lemma ASSIGN_OR_RETURN_run {S T E : Type} `{DefaultConstructible T}
    (expr : Eff S (Result.t T E)) (s : S) :
  ASSIGN_OR_RETURN expr s
  = (if Result.hasValue_ (fst (expr s))
     then Continues (Result.value_ (fst (expr s)))
     else Returned (Result.error (Result.error_ (fst (expr s)))),
     snd (expr s)).
Proof.
  unfold ASSIGN_OR_RETURN, bind, ret, Result.operator_bool.
  destruct (expr s) as [r s']. simpl. now destruct (Result.hasValue_ r).
Qed.

(** [ASSIGN_OR_RETURN] evaluates its expression once; on an error the
    enclosing function returns a new error Result with the same
    identifier, and on a success control continues with the held value. *)
Theorem ASSIGN_OR_RETURN_spec (S T E : Type) `{DefaultConstructible T}
    (expr : Eff S (Result.t T E)) (s : S) :
  (Result.isError (fst (expr s)) = true ->
   ASSIGN_OR_RETURN expr s
   = (Returned (Result.error (Result.error_of (fst (expr s)))),
      snd (expr s)))
  /\ (Result.isOk (fst (expr s)) = true ->
      ASSIGN_OR_RETURN expr s
      = (Continues (Result.value (fst (expr s))), snd (expr s))).
Proof.
  rewrite ASSIGN_OR_RETURN_run.
  unfold Result.isError, Result.isOk, Result.error_of, Result.value.
  destruct (Result.hasValue_ (fst (expr s))); split; intros Hflag;
    try discriminate; reflexivity.
Qed.

Lemma ASSIGN_OR_RETURN_spec_witness :
  ASSIGN_OR_RETURN (counted_expr (Result.error (T:=Z) Code.TIMEOUT)) 0%nat
  = (Returned (Result.error Code.TIMEOUT), 1%nat)
  /\ ASSIGN_OR_RETURN (counted_expr (Result.ok (E:=ErrorCode) 21)) 0%nat
     = (Continues 21, 1%nat).
Proof.
  split.
  - apply (ASSIGN_OR_RETURN_spec nat Z ErrorCode
             (counted_expr (Result.error Code.TIMEOUT)) 0%nat).
    reflexivity.
  - apply (ASSIGN_OR_RETURN_spec nat Z ErrorCode
             (counted_expr (Result.ok 21)) 0%nat).
    reflexivity.
Defined.

(** A body made of [ASSIGN_OR_RETURN(auto v, expr); return k(v);] returns
    what [expr.andThen(k)] gives, with the same effects. *)
Theorem ASSIGN_OR_RETURN_as_andThen (S T E A : Type)
    `{DefaultConstructible T} `{ErrorType E}
    (expr : Eff S (Result.t T E)) (k : T -> Eff S (Result.t T E)) (s : S) :
  then_ (A:=T) (B:=A) (ASSIGN_OR_RETURN expr) (fun v => return_ (k v)) s
  = bind expr
      (fun r => bind (Result.andThen r k) (fun r' => ret (Returned r'))) s.
Proof.
  unfold then_, ASSIGN_OR_RETURN, return_, Result.andThen,
    Result.operator_bool, Result.value_rvalue, Result.error_of, bind, ret.
  destruct (expr s) as [r s1].
  destruct (Result.hasValue_ r); simpl; [ | reflexivity].
  now destruct (k (Result.value_ r) s1).
Qed.

(** On an error Result fresh from a constructor the two early-return
    macros hand back the same thing: the Result the expression gave. *)
Theorem early_return_macros_agree (S T E : Type)
    `{DefaultConstructible T} `{ErrorType E}
    (expr : Eff S (Result.t T E)) (s : S) :
  constructed (fst (expr s)) ->
  Result.isError (fst (expr s)) = true ->
  RETURN_IF_ERROR expr s = (Returned (fst (expr s)), snd (expr s))
  /\ ASSIGN_OR_RETURN expr s = (Returned (fst (expr s)), snd (expr s)).
Proof.
  intros Hr Herr.
  rewrite RETURN_IF_ERROR_run, ASSIGN_OR_RETURN_run. simpl.
  unfold Result.operator_bool.
  apply isError_flag in Herr. apply constructed_slots in Hr.
  generalize dependent (fst (expr s)). intros [v e flag] Hr Herr.
  simpl in *. subst flag. subst v. split; reflexivity.
Qed.

Lemma early_return_macros_agree_witness :
  RETURN_IF_ERROR (ret (Result.error (T:=Z) Code.READ_ERROR)) tt
  = (Returned (Result.error Code.READ_ERROR), tt)
  /\ ASSIGN_OR_RETURN (ret (Result.error (T:=Z) Code.READ_ERROR)) tt
     = (Returned (Result.error Code.READ_ERROR), tt).
Proof.
  apply (early_return_macros_agree unit Z ErrorCode
           (ret (Result.error Code.READ_ERROR)) tt).
  - apply constructed_error.
  - reflexivity.
Defined.

(** The documented chain of two [RETURN_IF_ERROR]s returns the Result of
    the first step that fails, without evaluating a later step, and
    [Result<void>::ok()] when both steps succeed. *)
Theorem doSomething_outcome (S E : Type) `{ErrorType E}
    (step1 step2 : Eff S (ResultVoid.t E)) (s : S) :
  doSomething step1 step2 s
  = if ResultVoid.isOk (fst (step1 s))
    then (Returned
            (if ResultVoid.isOk (fst (step2 (snd (step1 s))))
             then ResultVoid.ok
             else fst (step2 (snd (step1 s)))),
          snd (step2 (snd (step1 s))))
    else (Returned (fst (step1 s)), snd (step1 s)).
Proof.
  unfold doSomething, then_, bind at 1.
  rewrite RETURN_IF_ERROR_run. simpl.
  unfold ResultVoid.isOk, ResultVoid.operator_bool.
  destruct (ResultVoid.hasValue_ (fst (step1 s))); [ | reflexivity].
  unfold bind at 1. rewrite RETURN_IF_ERROR_run. simpl.
  unfold ResultVoid.operator_bool.
  now destruct (ResultVoid.hasValue_ (fst (step2 (snd (step1 s))))).
Qed.

(* ===================================================================== *)
(** ** Properties of ScopeGuard *)
(* ===================================================================== *)

(** A guard runs its cleanup when destroyed, and a dismissed guard never
    does; dismissing again changes nothing. *)
Theorem ScopeGuard_dismiss (S : Type) (func : Eff S unit)
    (g : ScopeGuard.t S) (s : S) :
  ScopeGuard.dtor (makeScopeGuard func) s = func s
  /\ ScopeGuard.dtor (ScopeGuard.dismiss g) s = (tt, s)
  /\ ScopeGuard.dismiss (ScopeGuard.dismiss g) = ScopeGuard.dismiss g.
Proof. repeat split. Qed.

(** Moving a guard moves the duty to clean up: the moved-from guard does
    nothing when destroyed, and destroying both guards, in either order,
    has the effect of destroying the original one: the cleanup runs once
    if the original was armed and not at all if it was dismissed. *)
Theorem ScopeGuard_move_once (S : Type) (g : ScopeGuard.t S) (s : S) :
  let moved := fst (ScopeGuard.move_ctor g) in
  let source := snd (ScopeGuard.move_ctor g) in
  ScopeGuard.dtor source s = (tt, s)
  /\ bind (ScopeGuard.dtor moved) (fun _ => ScopeGuard.dtor source) s
     = ScopeGuard.dtor g s
  /\ bind (ScopeGuard.dtor source) (fun _ => ScopeGuard.dtor moved) s
     = ScopeGuard.dtor g s.
Proof.
  simpl. unfold ScopeGuard.dtor, bind, ret. simpl.
  destruct (ScopeGuard.active_ g); repeat split.
  now destruct (ScopeGuard.func_ g s) as [[] s'].
Qed.

(** Counted: after a move, once both guards are gone the cleanup has run
    exactly once. *)
Lemma ScopeGuard_move_count (runs : nat) :
  let g := makeScopeGuard counted_cleanup in
  snd (bind (ScopeGuard.dtor (fst (ScopeGuard.move_ctor g)))
            (fun _ => ScopeGuard.dtor (snd (ScopeGuard.move_ctor g))) runs)
  = Datatypes.S runs.
Proof. reflexivity. Qed.
